(** * systeminfo.py: a report of interpreter attributes

    The script [00_Basic/systeminfo.py] imports the module [sys] and prints
    eleven of its attributes, each after a fixed label.  This development
    embeds the script as a computation in a state-and-exception monad over a
    small model of the interpreter (the namespace of [sys], the text written
    to standard output, the log of attribute loads, the exceptions reported
    on standard error) and proves the properties of its output, its exit
    status and its effects.

    The namespace of [sys] is a finite map, as in the interpreter, so that a
    load of a missing attribute raises; the runtime that fills it is not
    part of the repository and is described in module [Host].  Standard
    output is a text stream that accepts every write, every value converts
    to its text, and strings hold code points below 256: the faults of a
    stream that refuses a write, of a conversion that raises and of the
    flush at exit are not modelled. *)

From Stdlib Require Import ZArith String Ascii List Lia DecimalString DecimalZ.
From stdpp Require Import base option list strings gmap.

Local Open Scope string_scope.
Local Open Scope Z_scope.

(** Let [simpl] and [cbn] unfold the append of strings on a constructor. *)
#[local] Arguments String.append !_ _ / : simpl nomatch.

(** ** Text of Python values *)

Module PyText.

(** The line feed, the only character that ends a line of output. *)
Definition LF : ascii := ascii_of_nat 10.

(** [str(n)] for an [int]: its decimal numeral, with a minus sign when
    negative. *)
Definition int_str (n : Z) : string := NilZero.string_of_int (Z.to_int n).

(** [int(s)] restricted to the numerals [int_str] produces. *)
Definition int_of_str (s : string) : option Z :=
  Z.of_int <$> NilZero.int_of_string s.

(** A decimal integer literal of Python, without underscores: digits only,
    the first of them not a zero unless all are zeros. *)
Definition is_digit (c : ascii) : bool :=
  (48 <=? N_of_ascii c)%N && (N_of_ascii c <=? 57)%N.

Fixpoint all_chars (p : ascii -> bool) (s : string) : bool :=
  match s with
  | EmptyString => true
  | String c s' => p c && all_chars p s'
  end.

Definition decimal_literal (s : string) : bool :=
  match s with
  | EmptyString => false
  | String c _ =>
      all_chars is_digit s && (negb (Ascii.eqb c "0") || all_chars (Ascii.eqb "0") s)
  end.

Definition hex_digit (n : N) : ascii :=
  if (n <? 10)%N then ascii_of_N (48 + n) else ascii_of_N (87 + n).

(** The escape [\xhh] of a code point below 256. *)
Definition hex_escape (n : N) : string :=
  String "\" (String "x" (String (hex_digit (n / 16)) (String (hex_digit (n mod 16)) ""))).

(** The code points from 128 to 255 that [str.isprintable] accepts: all
    but the controls 128 to 159, the no-break space and the soft hyphen. *)
Definition printable_high (n : N) : bool :=
  (161 <=? n)%N && negb (n =? 173)%N.

(** One character of [repr(s)], for the quote [q] chosen for the string. *)
Definition repr_char (q c : ascii) : string :=
  let n := N_of_ascii c in
  if Ascii.eqb c q || Ascii.eqb c "\" then String "\" (String c "")
  else if (n =? 9)%N then "\t"
  else if (n =? 10)%N then "\n"
  else if (n =? 13)%N then "\r"
  else if (n <? 32)%N || (n =? 127)%N then hex_escape n
  else if (n <? 127)%N then String c ""
  else if printable_high n then String c "" else hex_escape n.

Fixpoint has_char (c : ascii) (s : string) : bool :=
  match s with
  | EmptyString => false
  | String d s' => Ascii.eqb c d || has_char c s'
  end.

(** The two quote characters of [repr]: apostrophe and double quote. *)
Definition SQUOTE : ascii := ascii_of_nat 39.
Definition DQUOTE : ascii := ascii_of_nat 34.

(** [repr] quotes with apostrophes, unless the string holds an apostrophe
    and no double quote. *)
Definition repr_quote (s : string) : ascii :=
  if has_char SQUOTE s && negb (has_char DQUOTE s) then DQUOTE else SQUOTE.

Fixpoint repr_body (q : ascii) (s : string) : string :=
  match s with
  | EmptyString => EmptyString
  | String c s' => repr_char q c ++ repr_body q s'
  end.

(** [repr(s)] for a [str] whose code points are below 256. *)
Definition str_repr (s : string) : string :=
  let q := repr_quote s in
  String q (repr_body q s ++ String q "").

(** [sep.join(l)]. *)
Fixpoint join (sep : string) (l : list string) : string :=
  match l with
  | [] => ""
  | [x] => x
  | x :: l' => x ++ sep ++ join sep l'
  end.

End PyText.
Import PyText.

#[local] Set Warnings "-register-all".

(** The values the script handles: [None], [bool], [int], [str], [list] and
    the struct sequences [sys.version_info] and [sys.flags]. *)
Inductive PyVal : Type :=
| PNone
| PBool (b : bool)
| PInt (n : Z)
| PStr (s : string)
| PList (items : list PyVal)
| PStructSeq (tyname : string) (fields : list (string * PyVal)).

(** [repr(v)]. *)
Fixpoint py_repr (v : PyVal) : string :=
  match v with
  | PNone => "None"
  | PBool true => "True"
  | PBool false => "False"
  | PInt n => int_str n
  | PStr s => str_repr s
  | PList items => "[" ++ join ", " (List.map py_repr items) ++ "]"
  | PStructSeq tyname fields =>
      tyname ++ "(" ++
        join ", " (List.map (fun kv => fst kv ++ "=" ++ py_repr (snd kv)) fields)
        ++ ")"
  end.

(** [str(v)]: a [str] is its own text, every other value prints as its
    [repr]. *)
Definition py_str (v : PyVal) : string :=
  match v with
  | PStr s => s
  | _ => py_repr v
  end.

(** The text of one [print] call with the default separator and end. *)
Definition print_text (args : list PyVal) : string :=
  join " " (List.map py_str args) ++ String LF "".

(** ** The interpreter state and its monad *)

(** An unhandled exception of the script. *)
Inductive Exn : Type :=
| ModuleNotFoundError (name : string)
| AttributeError (attr : string).

(** A reference to a module object.  The only module of the modelled
    interpreter is the built-in [sys]. *)
Inductive ModuleRef : Type := SysModule.

Section Interpreter.

(** Everything of the process and its surroundings that the interpreter
    model does not look into: files, sockets, environment variables. *)
Context {Outside : Type}.

Record World : Type := mkWorld {
  sys_dict : gmap string PyVal;   (** the namespace of module [sys] *)
  printed : list string;          (** standard output: one text per [print] call *)
  loads : list string;            (** the attributes of [sys] loaded so far *)
  stderr : list Exn;              (** standard error: the exceptions reported *)
  outside : Outside
}.

(** A computation either raises or returns, and leaves a new state. *)
Definition Py (A : Type) : Type := World -> (Exn + A) * World.

Definition ret {A} (a : A) : Py A := fun w => (inr a, w).

Definition bind {A B} (m : Py A) (f : A -> Py B) : Py B :=
  fun w =>
    match m w with
    | (inl e, w') => (inl e, w')
    | (inr a, w') => f a w'
    end.

Definition raise {A} (e : Exn) : Py A := fun w => (inl e, w).

(** [import name]: the module object bound to the name. *)
Definition import (name : string) : Py ModuleRef :=
  if String.eqb name "sys" then ret SysModule
  else raise (ModuleNotFoundError name).

(** [m.attr]: a lookup in the namespace of the module; a missing name
    raises [AttributeError]. *)
Definition getattr (m : ModuleRef) (attr : string) : Py PyVal :=
  fun w =>
    match sys_dict w !! attr with
    | Some v => (inr v, mkWorld (sys_dict w) (printed w) (loads w ++ [attr]) (stderr w) (outside w))
    | None => (inl (AttributeError attr), w)
    end.

(** [print] of several arguments: the [str] of each, separated by one
    space and ended by a line feed, goes to standard output.  The stream
    accepts every write and every value has a text, so the call returns
    with the whole record written; a stream that refuses a write and a
    conversion that raises are outside this model. *)
Definition print (args : list PyVal) : Py unit :=
  fun w =>
    (inr tt,
     mkWorld (sys_dict w) (printed w ++ [print_text args]) (loads w) (stderr w)
     (outside w)).

End Interpreter.

Arguments World : clear implicits.
Arguments Py : clear implicits.

#[global] Instance Py_ret {Outside} : MRet (Py Outside) := @ret Outside.
#[global] Instance Py_bind {Outside} : MBind (Py Outside) :=
  fun A B f m => bind m f.

(** ** The script *)

Section Script.

Context {Outside : Type}.

(** The module body of [systeminfo.py], statement by statement. *)
Definition main : Py Outside unit :=
  sys ← import "sys";
  v ← getattr sys "version"; print [PStr "Python version:"; v];;
  v ← getattr sys "platform"; print [PStr "Platform:"; v];;
  v ← getattr sys "executable"; print [PStr "Executable:"; v];;
  v ← getattr sys "byteorder"; print [PStr "Byte order:"; v];;
  v ← getattr sys "maxsize"; print [PStr "Max size of an integer:"; v];;
  v ← getattr sys "path"; print [PStr "Path:"; v];;
  v ← getattr sys "version_info"; print [PStr "Version info:"; v];;
  v ← getattr sys "api_version"; print [PStr "API version:"; v];;
  v ← getattr sys "flags"; print [PStr "Flags:"; v];;
  v ← getattr sys "hexversion"; print [PStr "Hex version:"; v];;
  v ← getattr sys "copyright"; print [PStr "Copyright:"; v].

(** The interpreter reports an unhandled exception on standard error. *)
Definition report_exception (e : Exn) (w : World Outside) : World Outside :=
  mkWorld (sys_dict w) (printed w) (loads w) (stderr w ++ [e]) (outside w).

(** The end of the process: exit status 0 when the module body returned;
    when it ended by an unhandled exception, the exception is reported and
    the exit status is 1.  The flush of standard output at exit succeeds,
    as the stream accepts every write; the status of a failed flush is
    outside this model. *)
Definition finish (res : (Exn + unit) * World Outside) : Z * World Outside :=
  match res with
  | (inr _, w') => (0, w')
  | (inl e, w') => (1, report_exception e w')
  end.

(** Running the file as a script. *)
Definition run_script (w : World Outside) : Z * World Outside :=
  finish (main w).

(** The text on standard output. *)
Definition stdout_text (w : World Outside) : string :=
  String.concat "" (printed w).

(** A state in which nothing has been printed or loaded yet. *)
Definition fresh (d : gmap string PyVal) (o : Outside) : World Outside :=
  mkWorld d [] [] [] o.

(** The state in which the interpreter starts the script [script] with
    the command-line arguments [args]: the command line is in [sys.argv],
    the script first. *)
Definition invoke (d : gmap string PyVal) (script : string) (args : list string)
    (o : Outside) : World Outside :=
  fresh (<["argv" := PList (List.map PStr (script :: args))]> d) o.

End Script.

(** ** The hosting runtime *)

Module Host.

(** Modelled from the spec: the byte order that the runtime (not part of
    the repository) reports in [sys.byteorder], one of two values fixed
    per host architecture. *)
Inductive ByteOrder : Type := LittleEndian | BigEndian.

(** Modelled from the spec: the text of [sys.byteorder], the literal
    little or big. *)
Definition byteorder_text (b : ByteOrder) : string :=
  match b with
  | LittleEndian => "little"
  | BigEndian => "big"
  end.

(** Modelled from the spec: the word size of the platform, on which the
    runtime's [sys.maxsize] depends. *)
Inductive WordSize : Type := Word32 | Word64.

Definition word_bits (ws : WordSize) : Z :=
  match ws with
  | Word32 => 32
  | Word64 => 64
  end.

(** Modelled from the spec: [sys.maxsize], the largest index or size that
    a signed platform word represents. *)
Definition maxsize_of (ws : WordSize) : Z := 2 ^ (word_bits ws - 1) - 1.

(** Modelled from the spec: the release level of the runtime's version
    tuple. *)
Inductive ReleaseLevel : Type := Alpha | Beta | Candidate | Final.

Definition releaselevel_text (l : ReleaseLevel) : string :=
  match l with
  | Alpha => "alpha"
  | Beta => "beta"
  | Candidate => "candidate"
  | Final => "final"
  end.

Definition releaselevel_code (l : ReleaseLevel) : Z :=
  match l with
  | Alpha => 10
  | Beta => 11
  | Candidate => 12
  | Final => 15
  end.

(** Modelled from the spec: the version tuple of the runtime: major,
    minor, micro, release level, serial. *)
Record VersionInfo : Type := mkVersionInfo {
  major : Z;
  minor : Z;
  micro : Z;
  releaselevel : ReleaseLevel;
  serial : Z
}.

(** Modelled from the spec: [sys.hexversion], the version tuple packed
    into one integer: major in bits 24 to 31, minor in bits 16 to 23,
    micro in bits 8 to 15, the release level in bits 4 to 7 and the
    serial in bits 0 to 3. *)
Definition hexversion_of (v : VersionInfo) : Z :=
  Z.lor (Z.shiftl (major v) 24)
    (Z.lor (Z.shiftl (minor v) 16)
       (Z.lor (Z.shiftl (micro v) 8)
          (Z.lor (Z.shiftl (releaselevel_code (releaselevel v)) 4) (serial v)))).

(** The fields of a packed version, by shifts and masks. *)
Definition hex_major (h : Z) : Z := Z.land (Z.shiftr h 24) 255.
Definition hex_minor (h : Z) : Z := Z.land (Z.shiftr h 16) 255.
Definition hex_micro (h : Z) : Z := Z.land (Z.shiftr h 8) 255.
Definition hex_level (h : Z) : Z := Z.land (Z.shiftr h 4) 15.
Definition hex_serial (h : Z) : Z := Z.land h 15.

(** The version tuples that fit the packing. *)
Definition version_in_range (v : VersionInfo) : Prop :=
  0 <= major v < 256 /\ 0 <= minor v < 256 /\ 0 <= micro v < 256 /\
  0 <= serial v < 16.

(** [sys.version_info] as the struct sequence that [print] receives. *)
Definition version_info_val (v : VersionInfo) : PyVal :=
  PStructSeq "sys.version_info"
    [("major", PInt (major v)); ("minor", PInt (minor v));
     ("micro", PInt (micro v));
     ("releaselevel", PStr (releaselevel_text (releaselevel v)));
     ("serial", PInt (serial v))].

(** Modelled from the spec: a runtime flag, a boolean or an integer. *)
Inductive FlagValue : Type :=
| FlagInt (n : Z)
| FlagBool (b : bool).

Definition flag_val (f : FlagValue) : PyVal :=
  match f with
  | FlagInt n => PInt n
  | FlagBool b => PBool b
  end.

Definition flags_val (fs : list (string * FlagValue)) : PyVal :=
  PStructSeq "sys.flags" (List.map (fun kv => (fst kv, flag_val (snd kv))) fs).

(** Modelled from the spec: what the hosting runtime, which is not part
    of the repository, reports about itself; one field per row of the
    attribute table. *)
Record Runtime : Type := mkRuntime {
  version : string;
  platform : string;
  executable : string;
  byteorder : ByteOrder;
  wordsize : WordSize;
  path : list string;
  version_info : VersionInfo;
  api_version : Z;
  flags : list (string * FlagValue);
  copyright : string
}.

(** Modelled from the spec: the namespace of [sys] that the runtime
    sets up before the script runs. *)
Definition sys_namespace (r : Runtime) : gmap string PyVal :=
  list_to_map
    [("version", PStr (version r));
     ("platform", PStr (platform r));
     ("executable", PStr (executable r));
     ("byteorder", PStr (byteorder_text (byteorder r)));
     ("maxsize", PInt (maxsize_of (wordsize r)));
     ("path", PList (List.map PStr (path r)));
     ("version_info", version_info_val (version_info r));
     ("api_version", PInt (api_version r));
     ("flags", flags_val (flags r));
     ("hexversion", PInt (hexversion_of (version_info r)));
     ("copyright", PStr (copyright r))].

(** The state in which the runtime [r] starts the script. *)
Definition boot {Outside} (r : Runtime) (script : string) (args : list string)
    (o : Outside) : World Outside :=
  invoke (sys_namespace r) script args o.

(** The values of the eleven attributes the script prints, in order. *)
Definition reported (r : Runtime) : list PyVal :=
  [PStr (version r); PStr (platform r); PStr (executable r);
   PStr (byteorder_text (byteorder r)); PInt (maxsize_of (wordsize r));
   PList (List.map PStr (path r)); version_info_val (version_info r);
   PInt (api_version r); flags_val (flags r);
   PInt (hexversion_of (version_info r)); PStr (copyright r)].

(** CPython 3.10.4 on 64-bit Linux. *)
Definition cpython_3_10 : Runtime :=
  {| version := "3.10.4 (main, Jun 29 2022, 12:14:53) [GCC 11.2.0]";
     platform := "linux";
     executable := "/usr/bin/python3";
     byteorder := LittleEndian;
     wordsize := Word64;
     path := ["/home/user/00_Basic"; "/usr/lib/python310.zip";
              "/usr/lib/python3.10"; "/usr/lib/python3.10/lib-dynload";
              "/usr/local/lib/python3.10/dist-packages";
              "/usr/lib/python3/dist-packages"];
     version_info := mkVersionInfo 3 10 4 Final 0;
     api_version := 1013;
     flags := [("debug", FlagInt 0); ("inspect", FlagInt 0);
               ("interactive", FlagInt 0); ("optimize", FlagInt 0);
               ("dont_write_bytecode", FlagInt 0); ("no_user_site", FlagInt 0);
               ("no_site", FlagInt 0); ("ignore_environment", FlagInt 0);
               ("verbose", FlagInt 0); ("bytes_warning", FlagInt 0);
               ("quiet", FlagInt 0); ("hash_randomization", FlagInt 1);
               ("isolated", FlagInt 0); ("dev_mode", FlagBool false);
               ("utf8_mode", FlagInt 0); ("warn_default_encoding", FlagInt 0)];
     copyright :=
       join (String LF "")
         ["Copyright (c) 2001-2022 Python Software Foundation.";
          "All Rights Reserved."; "";
          "Copyright (c) 2000 BeOpen.com."; "All Rights Reserved."; "";
          "Copyright (c) 1995-2001 Corporation for National Research Initiatives.";
          "All Rights Reserved."; "";
          "Copyright (c) 1991-1995 Stichting Mathematisch Centrum, Amsterdam.";
          "All Rights Reserved."] |}.

(** A runtime like [cpython_3_10], with its copyright notice on one
    line. *)
Definition single_line_runtime : Runtime :=
  mkRuntime (version cpython_3_10) "linux" "/usr/bin/python3"
    LittleEndian Word64 (path cpython_3_10)
    (version_info cpython_3_10) 1013 (flags cpython_3_10)
    "Copyright (c) 2001-2022 Python Software Foundation.".

End Host.

(** ** Reading the output *)

(** The lines of a text: every line feed ends a line, and text after the
    last line feed is a last, unterminated line. *)
Fixpoint lines_from (cur : string) (s : string) : list string :=
  match s with
  | EmptyString => if String.eqb cur "" then [] else [cur]
  | String c s' =>
      if Ascii.eqb c LF then cur :: lines_from "" s'
      else lines_from (cur ++ String c "") s'
  end.

Definition lines_of (s : string) : list string := lines_from "" s.

(** The number of line feeds in a text. *)
Fixpoint count_lf (s : string) : nat :=
  match s with
  | EmptyString => O
  | String c s' => (if Ascii.eqb c LF then 1 else 0)%nat + count_lf s'
  end.

(** [s] without its last character. *)
Fixpoint chop (s : string) : string :=
  match s with
  | EmptyString => EmptyString
  | String c EmptyString => EmptyString
  | String c s' => String c (chop s')
  end.

(** [s] after the prefix [p], when it starts with [p]. *)
Fixpoint strip_prefix (p s : string) : option string :=
  match p, s with
  | EmptyString, _ => Some s
  | String a p', String b s' => if Ascii.eqb a b then strip_prefix p' s' else None
  | String _ _, EmptyString => None
  end.

(** Two texts clash when they differ at a position that both have. *)
Fixpoint clash (p s : string) : bool :=
  match p, s with
  | String a p', String b s' => if Ascii.eqb a b then clash p' s' else true
  | _, _ => false
  end.

(** The value on the output record of a label: the text between the label
    with its colon and space and the line feed that ends the record, in the
    first record that starts with the label. *)
Fixpoint value_of (label : string) (records : list string) : option string :=
  match records with
  | [] => None
  | rec :: records' =>
      match strip_prefix (label ++ ": ") rec with
      | Some rest => Some (chop rest)
      | None => value_of label records'
      end
  end.

(** The eleven labels and the attribute printed after each, in the order of
    the script. *)
Definition rows : list (string * string) :=
  [("Python version", "version"); ("Platform", "platform");
   ("Executable", "executable"); ("Byte order", "byteorder");
   ("Max size of an integer", "maxsize"); ("Path", "path");
   ("Version info", "version_info"); ("API version", "api_version");
   ("Flags", "flags"); ("Hex version", "hexversion");
   ("Copyright", "copyright")].

Definition labels : list string := List.map fst rows.
Definition queried : list string := List.map snd rows.

(** The record of one attribute: label, colon, space, value, line feed. *)
Definition record_text (label : string) (v : PyVal) : string :=
  label ++ ": " ++ py_str v ++ String LF "".

(** The output satisfies the eleven-line layout: exactly eleven lines, the
    i-th beginning with the i-th label. *)
Definition eleven_labelled_lines (out : string) : Prop :=
  length (lines_of out) = 11%nat /\
  Forall2 (fun label line => String.prefix label line = true) labels (lines_of out).

(** ** The script as a loop over its rows *)

Section Report.

Context {Outside : Type}.

(** One statement of the script: load the attribute, print it after the
    label and a colon. *)
Definition report_row (m : ModuleRef) (row : string * string) : Py Outside unit :=
  v ← getattr m (snd row); print [PStr (fst row ++ ":"); v].

(** The statements of a list of rows, in sequence. *)
Fixpoint report (m : ModuleRef) (rs : list (string * string)) : Py Outside unit :=
  match rs with
  | [] => ret tt
  | row :: rs' => report_row m row;; report m rs'
  end.

(** What the statements of [rs] do to a namespace [d], as data: the texts
    printed, the attributes loaded, and the exception that stopped them. *)
Fixpoint report_effect (d : gmap string PyVal) (rs : list (string * string))
    : list string * list string * option Exn :=
  match rs with
  | [] => ([], [], None)
  | row :: rs' =>
      match d !! snd row with
      | None => ([], [], Some (AttributeError (snd row)))
      | Some v =>
          let '(ps, ls, e) := report_effect d rs' in
          (print_text [PStr (fst row ++ ":"); v] :: ps, snd row :: ls, e)
      end
  end.

Definition result_of (e : option Exn) : Exn + unit :=
  match e with
  | None => inr tt
  | Some x => inl x
  end.

Definition exit_status (e : option Exn) : Z :=
  match e with
  | None => 0
  | Some _ => 1
  end.

(** The exceptions reported on standard error at the end. *)
Definition reported_of (e : option Exn) : list Exn :=
  match e with
  | None => []
  | Some x => [x]
  end.

End Report.

(** ** Facts about texts *)

Section TextFacts.

Implicit Types (s t p cur : string) (c : ascii).

Lemma append_nil_r s : s ++ "" = s.
Proof. induction s as [|c s IH]; cbn; [reflexivity|]. now rewrite IH. Qed.

Lemma append_assoc s t u : (s ++ t) ++ u = s ++ t ++ u.
Proof. induction s as [|c s IH]; cbn; [reflexivity|]. now rewrite IH. Qed.

Lemma concat_cons s (l : list string) :
  String.concat "" (s :: l) = s ++ String.concat "" l.
Proof. destruct l; [symmetry; apply append_nil_r|reflexivity]. Qed.

Lemma count_lf_app s t : count_lf (s ++ t) = (count_lf s + count_lf t)%nat.
Proof. induction s as [|c s IH]; cbn; [reflexivity|]. rewrite IH. lia. Qed.

Lemma prefix_append p s : String.prefix p (p ++ s) = true.
Proof.
  induction p as [|c p IH]; cbn; [now destruct s|].
  destruct (ascii_dec c c) as [_|Hc]; [exact IH|now destruct Hc].
Qed.

Lemma strip_prefix_append p s : strip_prefix p (p ++ s) = Some s.
Proof.
  induction p as [|c p IH]; cbn; [reflexivity|].
  now rewrite Ascii.eqb_refl.
Qed.

Lemma strip_prefix_clash p s t :
  clash p s = true -> strip_prefix p (s ++ t) = None.
Proof.
  revert s; induction p as [|a p IH]; intros [|b s]; cbn; try discriminate.
  destruct (Ascii.eqb a b); [apply IH|reflexivity].
Qed.

Lemma chop_append_char s c : chop (s ++ String c "") = s.
Proof.
  induction s as [|d s IH]; [reflexivity|].
  cbn. rewrite IH. now destruct s.
Qed.

(** A text without line feed only extends the current line. *)
Lemma lines_from_app cur s t :
  count_lf s = O -> lines_from cur (s ++ t) = lines_from (cur ++ s) t.
Proof.
  revert cur; induction s as [|c s IH]; intros cur H; cbn.
  - now rewrite append_nil_r.
  - cbn in H. destruct (Ascii.eqb c LF); [discriminate|].
    rewrite IH by exact H. now rewrite append_assoc.
Qed.

Lemma lines_from_record cur s t :
  count_lf s = O ->
  lines_from cur (s ++ String LF t) = (cur ++ s) :: lines_from "" t.
Proof. intros H. now rewrite lines_from_app. Qed.

(** A text that ends with a line feed has as many lines as line feeds. *)
Lemma lines_from_length cur s :
  length (lines_from cur (s ++ String LF "")) = S (count_lf s).
Proof.
  revert cur; induction s as [|c s IH]; intros cur; [reflexivity|].
  cbn. destruct (Ascii.eqb c LF); cbn; now rewrite IH.
Qed.

(** *** Records and their values *)

Lemma record_text_split label v :
  record_text label v = (label ++ ": ") ++ py_str v ++ String LF "".
Proof. unfold record_text. now rewrite append_assoc. Qed.

Lemma value_of_here label v (recs : list string) :
  value_of label (record_text label v :: recs) = Some (py_str v).
Proof.
  cbn [value_of]. rewrite record_text_split, strip_prefix_append.
  now rewrite chop_append_char.
Qed.

Lemma value_of_skip label label' v (recs : list string) :
  clash (label ++ ": ") (label' ++ ": ") = true ->
  value_of label (record_text label' v :: recs) = value_of label recs.
Proof.
  intros H. cbn [value_of].
  now rewrite record_text_split, (strip_prefix_clash _ _ _ H).
Qed.

(** The lines of a sequence of records whose labels and values hold no
    line feed: one line per record. *)
Lemma lines_of_records (ls : list string) : forall (vs : list PyVal),
  Forall (fun l => count_lf l = O) ls ->
  Forall (fun v => count_lf (py_str v) = O) vs ->
  lines_of (String.concat "" (zip_with record_text ls vs)) =
  zip_with (fun l v => l ++ ": " ++ py_str v) ls vs.
Proof.
  unfold lines_of.
  induction ls as [|l ls IH]; intros [|v vs] Hls Hvs; try reflexivity.
  apply Forall_cons in Hls as [Hl Hls]. apply Forall_cons in Hvs as [Hv Hvs].
  cbn [zip_with]. rewrite concat_cons. unfold record_text at 1.
  rewrite <- (IH vs Hls Hvs).
  replace ((l ++ ": " ++ py_str v ++ String LF "") ++
           String.concat "" (zip_with record_text ls vs))
    with ((l ++ ": " ++ py_str v) ++
          String LF (String.concat "" (zip_with record_text ls vs)))
    by (now rewrite !append_assoc).
  rewrite lines_from_record; [reflexivity|].
  rewrite !count_lf_app, Hl, Hv. reflexivity.
Qed.

Lemma prefix_records (ls : list string) : forall (vs : list PyVal),
  length ls = length vs ->
  Forall2 (fun l line => String.prefix l line = true) ls
    (zip_with (fun l v => l ++ ": " ++ py_str v) ls vs).
Proof.
  induction ls as [|l ls IH]; intros [|v vs] H; try discriminate; cbn [zip_with].
  - constructor.
  - constructor; [apply prefix_append|]. apply IH. now injection H.
Qed.

(** The line feeds of a sequence of records: one per record, and those of
    the labels and of the values. *)
Lemma count_lf_records (ls : list string) : forall (vs : list PyVal),
  length ls = length vs ->
  count_lf (String.concat "" (zip_with record_text ls vs)) =
  (length ls + sum_list (List.map count_lf ls)
   + sum_list (List.map (fun v => count_lf (py_str v)) vs))%nat.
Proof.
  induction ls as [|l ls IH]; intros [|v vs] H; try discriminate; [reflexivity|].
  cbn [zip_with]. rewrite concat_cons, count_lf_app, IH by (now injection H).
  unfold record_text. rewrite !count_lf_app.
  change (count_lf ": ") with O. change (count_lf (String LF "")) with 1%nat.
  cbn [length List.map sum_list sum_list_with]. unfold id. lia.
Qed.

(** A non-empty sequence of records ends with a line feed. *)
Lemma records_end_with_lf (ls : list string) : forall (vs : list PyVal),
  length ls = length vs -> ls <> [] ->
  exists t, String.concat "" (zip_with record_text ls vs) = t ++ String LF "".
Proof.
  induction ls as [|l ls IH]; intros [|v vs] H Hne; try discriminate; [easy|].
  cbn [zip_with]. rewrite concat_cons.
  destruct ls as [|l' ls].
  - destruct vs; [|discriminate]. cbn [zip_with String.concat].
    exists (l ++ ": " ++ py_str v). unfold record_text.
    now rewrite append_nil_r, !append_assoc.
  - destruct (IH vs) as [t Ht]; [now injection H|easy|].
    rewrite Ht. exists (record_text l v ++ t). now rewrite append_assoc.
Qed.

(** [int] reads back the numeral that [str] writes. *)
Lemma int_str_roundtrip (n : Z) : int_of_str (int_str n) = Some n.
Proof.
  unfold int_of_str, int_str. rewrite NilZero.isi.
  - cbn. now rewrite DecimalZ.of_to.
  - destruct n; cbn; try discriminate.
    intros [= H]. now apply DecimalPos.Unsigned.to_uint_nonnil in H.
  - destruct n; cbn; try discriminate.
    intros [= H]. now apply DecimalPos.Unsigned.to_uint_nonnil in H.
Qed.

End TextFacts.

(** ** The script and its rows *)

Section ReportFacts.

Context {Outside : Type}.
Implicit Types (w : World Outside) (rs : list (string * string)).

Lemma bind_unfold {A B} (m : Py Outside A) (f : A -> Py Outside B) w :
  (m ≫= f) w =
  match m w with
  | (inl e, w') => (inl e, w')
  | (inr a, w') => f a w'
  end.
Proof. reflexivity. Qed.

Lemma getattr_Some m attr w v :
  sys_dict w !! attr = Some v ->
  getattr m attr w =
  (inr v, mkWorld (sys_dict w) (printed w) (loads w ++ [attr]) (stderr w) (outside w)).
Proof. intros H. unfold getattr. rewrite H. reflexivity. Qed.

Lemma getattr_None m attr w :
  sys_dict w !! attr = None ->
  getattr m attr w = (inl (AttributeError attr), w).
Proof. intros H. unfold getattr. rewrite H. reflexivity. Qed.

(** The statements of [rs] change the state as [report_effect] tells. *)
Lemma report_eq m rs : forall w,
  report m rs w =
  let '(ps, ls, e) := report_effect (sys_dict w) rs in
  (result_of e,
   mkWorld (sys_dict w) (printed w ++ ps) (loads w ++ ls) (stderr w) (outside w)).
Proof.
  induction rs as [|[label attr] rs IH]; intros w.
  - destruct w; cbn. rewrite !app_nil_r. reflexivity.
  - cbn [report report_effect fst snd].
    rewrite bind_unfold. unfold report_row. rewrite bind_unfold. cbn [fst snd].
    destruct (sys_dict w !! attr) as [v|] eqn:Hv.
    + rewrite (getattr_Some _ _ _ _ Hv). cbn [print].
      rewrite IH. cbn [sys_dict printed loads stderr outside].
      destruct (report_effect (sys_dict w) rs) as [[ps ls] e].
      rewrite <- !app_assoc. reflexivity.
    + rewrite (getattr_None _ _ _ Hv). destruct w; cbn. rewrite !app_nil_r. reflexivity.
Qed.

(** The module body is the sequence of the statements of [rows]. *)
Lemma main_report w : main w = report SysModule rows w.
Proof.
  unfold main, rows, report, report_row.
  change (import "sys") with (@ret Outside _ SysModule).
  unfold mbind, Py_bind, bind, ret, getattr, print.
  cbn beta iota delta [fst snd].
  repeat (cbn [sys_dict printed loads stderr outside];
          match goal with
          | |- context [sys_dict w !! ?a] =>
              destruct (sys_dict w !! a); [|reflexivity]
          end).
  reflexivity.
Qed.

(** The exit status and the final state of a run of the script. *)
Lemma run_script_eq w :
  run_script w =
  let '(ps, ls, e) := report_effect (sys_dict w) rows in
  (exit_status e,
   mkWorld (sys_dict w) (printed w ++ ps) (loads w ++ ls)
     (stderr w ++ reported_of e) (outside w)).
Proof.
  unfold run_script. rewrite main_report, report_eq.
  destruct (report_effect (sys_dict w) rows) as [[ps ls] [e|]];
    cbn [finish result_of exit_status reported_of]; [reflexivity|].
  now rewrite app_nil_r.
Qed.

Lemma print_text_row label v :
  print_text [PStr (label ++ ":"); v] = record_text label v.
Proof.
  unfold print_text, record_text. cbn [List.map join py_str].
  now rewrite !append_assoc.
Qed.

(** With every attribute present, each row prints its record and no
    exception stops the rows. *)
Lemma report_effect_present d rs vs :
  Forall2 (fun row v => d !! snd row = Some v) rs vs ->
  report_effect d rs =
  (zip_with (fun row v => record_text (fst row) v) rs vs, List.map snd rs, None).
Proof.
  induction 1 as [|row v rs vs Hv _ IH]; [reflexivity|].
  cbn [report_effect zip_with List.map]. rewrite Hv, IH, print_text_row.
  reflexivity.
Qed.

(** The values of attributes that are all present. *)
Lemma present_values (d : gmap string PyVal) (attrs : list string) :
  Forall (fun a => is_Some (d !! a)) attrs ->
  exists vs, Forall2 (fun a v => d !! a = Some v) attrs vs.
Proof.
  induction 1 as [|a attrs [v Hv] _ [vs IH]].
  - exists []. constructor.
  - exists (v :: vs). now constructor.
Qed.

(** As many texts are printed as attributes are loaded, the loads follow
    the rows, and all rows are printed exactly when no exception occurs. *)
Lemma report_effect_size d rs :
  let '(ps, ls, e) := report_effect d rs in
  length ps = length ls /\ ls `prefix_of` List.map snd rs /\
  match e with
  | None => length ps = length rs
  | Some _ => (length ps < length rs)%nat
  end.
Proof.
  induction rs as [|row rs IH]; cbn [report_effect].
  - repeat split. reflexivity.
  - destruct (d !! snd row) as [v|].
    + destruct (report_effect d rs) as [[ps ls] e].
      destruct IH as (Hlen & Hpre & He). cbn [length List.map].
      repeat split; [lia|now apply prefix_cons|destruct e; lia].
    + cbn. repeat split; [apply prefix_nil|lia].
Qed.

(** Only the attributes named in the rows matter. *)
Lemma report_effect_agree d1 d2 rs :
  (forall a, a ∈ List.map snd rs -> d1 !! a = d2 !! a) ->
  report_effect d1 rs = report_effect d2 rs.
Proof.
  induction rs as [|row rs IH]; intros H; [reflexivity|].
  cbn [report_effect]. rewrite <- (H (snd row)) by (cbn; left).
  rewrite IH; [reflexivity|].
  intros a Ha. apply H. cbn. now right.
Qed.

(** A run in a namespace that holds the eleven attributes: status 0, the
    eleven records printed, the eleven attributes loaded, nothing reported. *)
Lemma run_present w (vs : list PyVal) :
  Forall2 (fun attr v => sys_dict w !! attr = Some v) queried vs ->
  run_script w =
  (0, mkWorld (sys_dict w) (printed w ++ zip_with record_text labels vs)
        (loads w ++ queried) (stderr w) (outside w)).
Proof.
  intros H. unfold queried in H. apply Forall2_fmap_l in H.
  rewrite run_script_eq, (report_effect_present _ _ _ H).
  cbn [exit_status reported_of]. unfold labels. now rewrite zip_with_fmap_l, app_nil_r.
Qed.

Lemma argv_not_queried : "argv" ∉ queried.
Proof.
  unfold queried, rows. cbn [List.map snd]. intros H.
  repeat (apply elem_of_cons in H as [H|H]; [discriminate H|]).
  now apply elem_of_nil in H.
Qed.

(** The command line does not hide any of the eleven attributes. *)
Lemma invoke_lookup (d : gmap string PyVal) script args (o : Outside) a :
  a ∈ queried -> sys_dict (invoke d script args o) !! a = d !! a.
Proof.
  intros Ha. cbn [invoke fresh sys_dict]. apply lookup_insert_ne.
  intros <-. now apply argv_not_queried.
Qed.

Lemma present_agree (d d' : gmap string PyVal) (attrs : list string) vs :
  (forall a, a ∈ attrs -> d' !! a = d !! a) ->
  Forall2 (fun a v => d !! a = Some v) attrs vs ->
  Forall2 (fun a v => d' !! a = Some v) attrs vs.
Proof.
  intros Hsame H. induction H as [|a v attrs vs Ha _ IH]; constructor.
  - rewrite Hsame; [exact Ha|left].
  - apply IH. intros b Hb. apply Hsame. now right.
Qed.

End ReportFacts.

(** ** Runs on a booted runtime *)

Section HostFacts.

Import Host.
Context {Outside : Type}.
Implicit Types (r : Runtime) (o : Outside) (args argv : list string).

(** The runtime provides each of the eleven attributes. *)
Lemma boot_present r script args o :
  Forall2 (fun row v => sys_dict (boot r script args o) !! snd row = Some v)
    rows (reported r).
Proof. unfold rows, reported. repeat constructor. Qed.

(** The run of the script on a booted runtime: status 0, the eleven
    records printed, the eleven attributes loaded. *)
Lemma run_boot r script args o :
  run_script (boot r script args o) =
  (0, mkWorld (sys_dict (boot r script args o))
        (zip_with record_text labels (reported r)) queried [] o).
Proof.
  rewrite run_script_eq.
  rewrite (report_effect_present _ _ _ (boot_present r script args o)).
  reflexivity.
Qed.

(** The line count of a run: eleven lines, and one more for every line
    feed inside a printed value. *)
Lemma line_count r script args o :
  length (lines_of (stdout_text (snd (run_script (boot r script args o))))) =
  (11 + sum_list (List.map (fun v => count_lf (py_str v)) (reported r)))%nat.
Proof.
  rewrite run_boot. unfold stdout_text. cbn [snd printed].
  destruct (records_end_with_lf labels (reported r)) as [t Ht];
    [reflexivity|discriminate|].
  pose proof (count_lf_records labels (reported r) eq_refl) as Hn.
  rewrite Ht in Hn |- *. unfold lines_of. rewrite lines_from_length.
  rewrite count_lf_app in Hn. change (count_lf (String LF "")) with 1%nat in Hn.
  change (sum_list (List.map count_lf labels)) with O in Hn.
  change (length labels) with 11%nat in Hn. lia.
Qed.

(** *** The packed version *)

Lemma lor_shiftl_add a b k :
  0 <= k -> 0 <= b < 2 ^ k -> Z.lor (Z.shiftl a k) b = a * 2 ^ k + b.
Proof.
  intros Hk Hb.
  assert (Z.land (Z.shiftl a k) b = 0) as Hdisjoint.
  { apply Z.bits_inj'; intros n Hn.
    rewrite Z.land_spec, Z.bits_0.
    destruct (Z.ltb_spec n k) as [Hlt|Hge].
    - now rewrite Z.shiftl_spec_low.
    - rewrite <- (Z.mod_small b (2 ^ k)) by assumption.
      rewrite Z.mod_pow2_bits_high by lia. apply andb_false_r. }
  rewrite <- Z.lxor_lor, <- Z.add_nocarry_lxor by exact Hdisjoint.
  now rewrite Z.shiftl_mul_pow2.
Qed.

(** Within range, the packed version is the sum of its shifted fields. *)
Lemma hexversion_of_sum v :
  version_in_range v ->
  hexversion_of v =
  major v * 16777216 + minor v * 65536 + micro v * 256
  + releaselevel_code (releaselevel v) * 16 + serial v.
Proof.
  intros (HM & Hm & Hu & Hs). unfold hexversion_of.
  assert (10 <= releaselevel_code (releaselevel v) <= 15) as HL
    by (destruct (releaselevel v); cbn; lia).
  rewrite (lor_shiftl_add (releaselevel_code _) (serial v) 4) by (cbn; lia).
  rewrite (lor_shiftl_add (micro v) _ 8) by (cbn; lia).
  rewrite (lor_shiftl_add (minor v) _ 16) by (cbn; lia).
  rewrite (lor_shiftl_add (major v) _ 24) by (cbn; lia).
  cbn. lia.
Qed.

(** Within range, shifts and masks give back every field of the packed
    version: the packing is an encoding. *)
Lemma hexversion_fields v :
  version_in_range v ->
  hex_major (hexversion_of v) = major v /\
  hex_minor (hexversion_of v) = minor v /\
  hex_micro (hexversion_of v) = micro v /\
  hex_level (hexversion_of v) = releaselevel_code (releaselevel v) /\
  hex_serial (hexversion_of v) = serial v.
Proof.
  intros Hv. rewrite (hexversion_of_sum v Hv).
  destruct Hv as (HM & Hm & Hu & Hs).
  assert (10 <= releaselevel_code (releaselevel v) <= 15) as HL
    by (destruct (releaselevel v); cbn; lia).
  unfold hex_major, hex_minor, hex_micro, hex_level, hex_serial.
  change 255 with (Z.ones 8). change 15 with (Z.ones 4).
  rewrite !Z.land_ones, !Z.shiftr_div_pow2 by lia.
  change (2 ^ 24) with 16777216. change (2 ^ 16) with 65536.
  change (2 ^ 8) with 256. change (2 ^ 4) with 16.
  repeat split; Z.div_mod_to_equations; lia.
Qed.

End HostFacts.

(** ** The properties of the script *)

(** The output of CPython 3.10.4 on Linux, line by line: the copyright
    notice alone takes eleven lines. *)
Example cpython_3_10_lines :
  lines_of (stdout_text (snd (run_script
    (Host.boot Host.cpython_3_10 "systeminfo.py" [] tt)))) =
  ["Python version: 3.10.4 (main, Jun 29 2022, 12:14:53) [GCC 11.2.0]";
   "Platform: linux";
   "Executable: /usr/bin/python3";
   "Byte order: little";
   "Max size of an integer: 9223372036854775807";
   "Path: ['/home/user/00_Basic', '/usr/lib/python310.zip', '/usr/lib/python3.10', '/usr/lib/python3.10/lib-dynload', '/usr/local/lib/python3.10/dist-packages', '/usr/lib/python3/dist-packages']";
   "Version info: sys.version_info(major=3, minor=10, micro=4, releaselevel='final', serial=0)";
   "API version: 1013";
   "Flags: sys.flags(debug=0, inspect=0, interactive=0, optimize=0, dont_write_bytecode=0, no_user_site=0, no_site=0, ignore_environment=0, verbose=0, bytes_warning=0, quiet=0, hash_randomization=1, isolated=0, dev_mode=False, utf8_mode=0, warn_default_encoding=0)";
   "Hex version: 50988272";
   "Copyright: Copyright (c) 2001-2022 Python Software Foundation.";
   "All Rights Reserved."; "";
   "Copyright (c) 2000 BeOpen.com."; "All Rights Reserved."; "";
   "Copyright (c) 1995-2001 Corporation for National Research Initiatives.";
   "All Rights Reserved."; "";
   "Copyright (c) 1991-1995 Stichting Mathematisch Centrum, Amsterdam.";
   "All Rights Reserved."].
Proof. vm_compute. reflexivity. Qed.

(** A namespace without [sys.platform]: the run prints one record, reports
    the [AttributeError] and exits with status 1. *)
Example missing_platform_run :
  let w := fresh (delete "platform" (Host.sys_namespace Host.cpython_3_10)) tt in
  fst (run_script w) = 1 /\
  printed (snd (run_script w)) =
    [String.concat ""
       ["Python version: 3.10.4 (main, Jun 29 2022, 12:14:53) [GCC 11.2.0]";
        String LF ""]] /\
  loads (snd (run_script w)) = ["version"] /\
  stderr (snd (run_script w)) = [AttributeError "platform"].
Proof. vm_compute. repeat split. Qed.

(** C2: when the namespace of [sys] holds the eleven attributes, the script
    adds to standard output, for each attribute in order, exactly the text
    made of the label, a colon, one space, the [str] of the attribute's
    value and the line feed that ends the record. *)
Theorem record_shape {Outside} (w : World Outside) (vs : list PyVal) :
  Forall2 (fun attr v => sys_dict w !! attr = Some v) queried vs ->
  printed (snd (run_script w)) =
  (printed w ++
   zip_with (fun label v => (label ++ ": " ++ py_str v ++ String LF "")%string)
     labels vs)%list.
Proof.
  intros H. now rewrite (run_present w vs H).
Qed.

Lemma record_shape_witness :
  printed (snd (run_script (Host.boot Host.cpython_3_10 "systeminfo.py" [] tt))) =
  ([] ++ zip_with (fun label v => (label ++ ": " ++ py_str v ++ String LF "")%string)
          labels (Host.reported Host.cpython_3_10))%list.
Proof.
  apply (record_shape (Host.boot Host.cpython_3_10 "systeminfo.py" [] tt)
           (Host.reported Host.cpython_3_10)).
  unfold queried, rows, Host.reported. cbn [List.map snd].
  repeat constructor.
Defined.

(** C3: a run that prints all eleven records exits with status 0. *)
Theorem completed_run_exits_zero {Outside} (w : World Outside) :
  length (printed (snd (run_script w))) = (length (printed w) + 11)%nat ->
  fst (run_script w) = 0.
Proof.
  rewrite run_script_eq.
  pose proof (report_effect_size (sys_dict w) rows) as H.
  destruct (report_effect (sys_dict w) rows) as [[ps ls] [e|]];
    cbn [fst snd printed exit_status]; [|reflexivity].
  destruct H as (_ & _ & H). cbn [length rows] in H.
  rewrite length_app. lia.
Qed.

Lemma completed_run_exits_zero_witness :
  fst (run_script (Host.boot Host.cpython_3_10 "systeminfo.py" [] tt)) = 0.
Proof.
  apply (completed_run_exits_zero (Host.boot Host.cpython_3_10 "systeminfo.py" [] tt)).
  vm_compute. reflexivity.
Defined.

(** C4: two runs that start with nothing printed in namespaces that agree
    on the eleven attributes the script loads write the same text to
    standard output and exit with the same status, whatever else differs
    between the two namespaces and the two surroundings. *)
Theorem same_attributes_same_output {Outside}
    (d1 d2 : gmap string PyVal) (o1 o2 : Outside) :
  (forall a, a ∈ queried -> d1 !! a = d2 !! a) ->
  stdout_text (snd (run_script (fresh d1 o1))) =
  stdout_text (snd (run_script (fresh d2 o2))) /\
  fst (run_script (fresh d1 o1)) = fst (run_script (fresh d2 o2)).
Proof.
  intros H. rewrite !run_script_eq. cbn [fresh sys_dict printed loads stderr outside].
  rewrite (report_effect_agree d1 d2 rows H).
  destruct (report_effect d2 rows) as [[ps ls] e]. split; reflexivity.
Qed.

Lemma same_attributes_same_output_witness :
  stdout_text (snd (run_script
    (fresh (Host.sys_namespace Host.single_line_runtime) 0%nat))) =
  stdout_text (snd (run_script
    (fresh (<["ps1" := PStr ">>> "]>
              (Host.sys_namespace Host.single_line_runtime)) 1%nat))) /\
  fst (run_script
    (fresh (Host.sys_namespace Host.single_line_runtime) 0%nat)) =
  fst (run_script
    (fresh (<["ps1" := PStr ">>> "]>
              (Host.sys_namespace Host.single_line_runtime)) 1%nat)).
Proof.
  apply (same_attributes_same_output
           (Host.sys_namespace Host.single_line_runtime)
           (<["ps1" := PStr ">>> "]>
              (Host.sys_namespace Host.single_line_runtime))
           0%nat 1%nat).
  intros a Ha. unfold queried, rows in Ha. cbn [List.map snd] in Ha.
  repeat (apply elem_of_cons in Ha as [->|Ha]; [vm_compute; reflexivity|]).
  now apply elem_of_nil in Ha.
Defined.

(** C1, as stated, fails on CPython: its [sys.copyright] holds ten line
    feeds, so the output of the run has twenty-one lines, not eleven. *)
Lemma eleven_lines_counterexample :
  ~ eleven_labelled_lines (stdout_text (snd (run_script
      (Host.boot Host.cpython_3_10 "systeminfo.py" [] tt)))).
Proof. intros [H _]. vm_compute in H. discriminate H. Qed.

(** C1, amended: invoked with no arguments in a namespace that holds the
    eleven attributes, none with a line feed in its printed text, the script
    writes exactly eleven lines to standard output, the i-th beginning with
    the i-th label of the table. *)
Theorem eleven_lines_without_line_feeds {Outside}
    (d : gmap string PyVal) (vs : list PyVal) (script : string) (o : Outside) :
  Forall2 (fun attr v => d !! attr = Some v) queried vs ->
  Forall (fun v => count_lf (py_str v) = O) vs ->
  eleven_labelled_lines (stdout_text (snd (run_script (invoke d script [] o)))).
Proof.
  intros Hd Hvs.
  assert (length labels = length vs) as Hlen
    by (rewrite <- (Forall2_length _ _ _ Hd); reflexivity).
  rewrite (run_present (invoke d script [] o) vs)
    by (eapply present_agree; [intros a; apply invoke_lookup|exact Hd]).
  unfold stdout_text, eleven_labelled_lines. cbn [snd printed invoke fresh app].
  rewrite (lines_of_records labels vs); [|repeat constructor|exact Hvs].
  split; [|now apply prefix_records].
  rewrite length_zip_with. rewrite <- Hlen. reflexivity.
Qed.

Lemma eleven_lines_without_line_feeds_witness :
  eleven_labelled_lines (stdout_text (snd (run_script
    (invoke (Host.sys_namespace Host.single_line_runtime) "systeminfo.py" [] tt)))).
Proof.
  apply (eleven_lines_without_line_feeds
           (Host.sys_namespace Host.single_line_runtime)
           (Host.reported Host.single_line_runtime) "systeminfo.py" tt).
  - unfold queried, rows. cbn [List.map snd]. repeat constructor.
  - repeat constructor.
Defined.

(** C5: whatever the command-line arguments, the script writes the text and
    exits with the status of the invocation with no arguments in the same
    namespace of [sys], and it never loads [sys.argv]. *)
Theorem arguments_ignored {Outside}
    (d : gmap string PyVal) (script : string) (args : list string) (o : Outside) :
  stdout_text (snd (run_script (invoke d script args o))) =
  stdout_text (snd (run_script (invoke d script [] o))) /\
  fst (run_script (invoke d script args o)) =
  fst (run_script (invoke d script [] o)) /\
  "argv" ∉ loads (snd (run_script (invoke d script args o))).
Proof.
  pose proof argv_not_queried as Hargv.
  rewrite !run_script_eq. cbn [invoke fresh sys_dict printed loads stderr outside].
  rewrite (report_effect_agree
             (<["argv" := PList (List.map PStr (script :: args))]> d)
             (<["argv" := PList (List.map PStr [script])]> d) rows).
  - pose proof (report_effect_size
                  (<["argv" := PList (List.map PStr [script])]> d) rows) as H.
    destruct (report_effect _ rows) as [[ps ls] e].
    destruct H as (_ & Hpre & _). cbn [fst snd loads app].
    repeat split. intros Hin. apply Hargv.
    destruct Hpre as [k Hk]. unfold queried. rewrite Hk.
    apply elem_of_app. now left.
  - intros a Ha. rewrite !lookup_insert_ne; [reflexivity| |];
      intros <-; now apply Hargv.
Qed.

(** C6: the value on the record labelled Byte order is the text little or
    the text big. *)
Theorem byte_order_value {Outside}
    (r : Host.Runtime) (script : string) (args : list string) (o : Outside) :
  let out := printed (snd (run_script (Host.boot r script args o))) in
  value_of "Byte order" out = Some "little" \/
  value_of "Byte order" out = Some "big".
Proof.
  cbv zeta. rewrite run_boot. cbn [snd printed].
  unfold labels, rows, Host.reported. cbn [List.map fst zip_with].
  rewrite !value_of_skip by reflexivity. rewrite value_of_here.
  destruct (Host.byteorder r); [left|right]; reflexivity.
Qed.

(** C7: the value on the record labelled Max size of an integer is a
    decimal integer literal, the numeral of an integer greater than zero,
    and it reads back as that integer. *)
Theorem max_size_value {Outside}
    (r : Host.Runtime) (script : string) (args : list string) (o : Outside) :
  let out := printed (snd (run_script (Host.boot r script args o))) in
  exists (text : string) (n : Z),
    value_of "Max size of an integer" out = Some text /\
    text = int_str n /\ decimal_literal text = true /\
    int_of_str text = Some n /\ 0 < n.
Proof.
  cbv zeta. rewrite run_boot. cbn [snd printed].
  unfold labels, rows, Host.reported. cbn [List.map fst zip_with].
  rewrite !value_of_skip by reflexivity. rewrite value_of_here.
  exists (int_str (Host.maxsize_of (Host.wordsize r))),
         (Host.maxsize_of (Host.wordsize r)).
  repeat split.
  - destruct (Host.wordsize r); reflexivity.
  - apply int_str_roundtrip.
  - destruct (Host.wordsize r); reflexivity.
Qed.

(** C8: a run changes nothing but standard output and the log of loads:
    the namespace of [sys] and the surroundings of the process are after
    the run what they were before, so every attribute has the value it had;
    standard output only grows; the loads are loads of the eleven
    attributes, in the order of the rows; and when the namespace holds the
    eleven attributes the run exits with status 0 and writes nothing to
    standard error. *)
Theorem run_changes_only_stdout {Outside} (w : World Outside) :
  let code := fst (run_script w) in
  let w' := snd (run_script w) in
  sys_dict w' = sys_dict w /\
  outside w' = outside w /\
  (forall a, sys_dict w' !! a = sys_dict w !! a) /\
  (exists new, printed w' = (printed w ++ new)%list) /\
  (exists ls, loads w' = (loads w ++ ls)%list /\ ls `prefix_of` queried) /\
  (Forall (fun a => is_Some (sys_dict w !! a)) queried ->
   code = 0 /\ stderr w' = stderr w).
Proof.
  cbv zeta. rewrite run_script_eq.
  pose proof (report_effect_size (sys_dict w) rows) as H.
  pose proof (report_effect_present (sys_dict w) rows) as Hall.
  destruct (report_effect (sys_dict w) rows) as [[ps ls] e].
  destruct H as (_ & Hpre & _). cbn [fst snd sys_dict outside printed loads stderr].
  do 3 (split; [reflexivity|]). do 2 (split; [eauto|]).
  intros Hq. apply present_values in Hq as [vs Hvs].
  unfold queried in Hvs. apply Forall2_fmap_l in Hvs.
  specialize (Hall vs Hvs). injection Hall as _ _ ->.
  split; [reflexivity|apply app_nil_r].
Qed.

Lemma run_changes_only_stdout_witness :
  fst (run_script (Host.boot Host.cpython_3_10 "systeminfo.py" [] tt)) = 0 /\
  stderr (snd (run_script (Host.boot Host.cpython_3_10 "systeminfo.py" [] tt))) =
  stderr (Host.boot Host.cpython_3_10 "systeminfo.py" [] tt).
Proof.
  destruct (run_changes_only_stdout
              (Host.boot Host.cpython_3_10 "systeminfo.py" [] tt))
    as (_ & _ & _ & _ & _ & H).
  apply H. unfold queried, rows. cbn [List.map snd].
  repeat constructor; eexists; vm_compute; reflexivity.
Defined.

(** C9: the value on the record labelled Version info is the text of the
    version tuple of the runtime, and the value on the record labelled Hex
    version is the decimal numeral of the integer that packs that same
    tuple; for a tuple in range, shifts and masks of that integer give back
    major, minor, micro, release level and serial. *)
Theorem hex_version_packs_version_info {Outside}
    (r : Host.Runtime) (script : string) (args : list string) (o : Outside) :
  let out := printed (snd (run_script (Host.boot r script args o))) in
  let v := Host.version_info r in
  value_of "Version info" out = Some (py_repr (Host.version_info_val v)) /\
  exists (text : string) (h : Z),
    value_of "Hex version" out = Some text /\
    text = int_str h /\ int_of_str text = Some h /\
    h = Host.hexversion_of v /\
    (Host.version_in_range v ->
     Host.hex_major h = Host.major v /\ Host.hex_minor h = Host.minor v /\
     Host.hex_micro h = Host.micro v /\
     Host.hex_level h = Host.releaselevel_code (Host.releaselevel v) /\
     Host.hex_serial h = Host.serial v).
Proof.
  cbv zeta. rewrite run_boot. cbn [snd printed].
  unfold labels, rows, Host.reported. cbn [List.map fst zip_with].
  split.
  - rewrite !value_of_skip by reflexivity. now rewrite value_of_here.
  - exists (int_str (Host.hexversion_of (Host.version_info r))),
           (Host.hexversion_of (Host.version_info r)).
    split; [|split; [|split; [|split]]].
    + rewrite !value_of_skip by reflexivity. now rewrite value_of_here.
    + reflexivity.
    + apply int_str_roundtrip.
    + reflexivity.
    + apply hexversion_fields.
Qed.

Lemma hex_version_packs_version_info_witness :
  value_of "Version info"
    (printed (snd (run_script (Host.boot Host.cpython_3_10 "systeminfo.py" [] tt)))) =
  Some "sys.version_info(major=3, minor=10, micro=4, releaselevel='final', serial=0)" /\
  value_of "Hex version"
    (printed (snd (run_script (Host.boot Host.cpython_3_10 "systeminfo.py" [] tt)))) =
  Some "50988272" /\
  Host.hex_major 50988272 = 3 /\ Host.hex_minor 50988272 = 10 /\
  Host.hex_micro 50988272 = 4 /\ Host.hex_level 50988272 = 15 /\
  Host.hex_serial 50988272 = 0.
Proof.
  destruct (hex_version_packs_version_info
              Host.cpython_3_10 "systeminfo.py" [] tt)
    as (Hinfo & text & h & Hhex & Htext & _ & Hh & Hfields).
  split; [exact Hinfo|].
  split; [rewrite Hhex, Htext, Hh; reflexivity|].
  rewrite Hh in Hfields. apply Hfields. vm_compute. intuition discriminate.
Defined.

(** ** Further properties of the module body *)

Section RunFacts.

Context {Outside : Type}.
Implicit Types (w : World Outside) (d : gmap string PyVal).

(** Rows that stop at the first missing attribute: the rows before it print
    their records, and the [AttributeError] names the missing one. *)
Lemma report_effect_stop d (rs1 rs2 : list (string * string)) row vs :
  Forall2 (fun row v => d !! snd row = Some v) rs1 vs ->
  d !! snd row = None ->
  report_effect d (rs1 ++ row :: rs2) =
  (zip_with (fun row v => record_text (fst row) v) rs1 vs, List.map snd rs1,
   Some (AttributeError (snd row))).
Proof.
  intros H Hrow. induction H as [|r v rs1 vs Hv _ IH].
  - cbn [app report_effect]. now rewrite Hrow.
  - cbn [app report_effect zip_with List.map].
    now rewrite Hv, IH, print_text_row.
Qed.

End RunFacts.

(** X2: when the attributes before some attribute of the script are present
    and that one is missing, the run prints exactly the records of the
    attributes before it, loads exactly those, reports the [AttributeError]
    of the missing attribute, changes nothing else and exits with status
    1. *)
Theorem first_missing_attribute {Outside} (w : World Outside)
    (before after : list string) (attr : string) (vs : list PyVal) :
  queried = (before ++ attr :: after)%list ->
  Forall2 (fun a v => sys_dict w !! a = Some v) before vs ->
  sys_dict w !! attr = None ->
  run_script w =
  (1, mkWorld (sys_dict w)
        (printed w ++ zip_with record_text (take (length before) labels) vs)
        (loads w ++ before) (stderr w ++ [AttributeError attr]) (outside w)).
Proof.
  intros Hq Hbefore Hattr. rewrite run_script_eq.
  assert (exists rs1 row rs2, rows = (rs1 ++ row :: rs2)%list /\
            List.map snd rs1 = before /\ snd row = attr) as (rs1 & row & rs2 & Hrows & H1 & H2).
  { unfold queried in Hq. change (List.map snd rows) with (snd <$> rows) in Hq.
    apply fmap_app_inv in Hq as (rs1 & rest & H1 & Hrest & Hrows).
    symmetry in Hrest. apply fmap_cons_inv in Hrest as (row & rs2 & H2 & _ & ->).
    exists rs1, row, rs2. repeat split; [exact Hrows|now symmetry|now symmetry]. }
  subst before attr. apply Forall2_fmap_l in Hbefore.
  rewrite Hrows, (report_effect_stop (sys_dict w) rs1 rs2 row vs Hbefore Hattr).
  cbn [exit_status reported_of]. do 2 f_equal.
  f_equal. unfold labels. rewrite Hrows.
  change (List.map fst (rs1 ++ row :: rs2)%list)
    with (fst <$> (rs1 ++ row :: rs2)%list).
  rewrite fmap_app, length_map, <- (length_fmap fst rs1), take_app_length.
  now rewrite zip_with_fmap_l.
Qed.

Lemma first_missing_attribute_witness :
  run_script (fresh (delete "platform" (Host.sys_namespace Host.cpython_3_10)) tt) =
  (1, mkWorld (delete "platform" (Host.sys_namespace Host.cpython_3_10))
        ([] ++ zip_with record_text (take (length ["version"]) labels)
                 [PStr (Host.version Host.cpython_3_10)])
        ([] ++ ["version"]) ([] ++ [AttributeError "platform"]) tt).
Proof.
  pose proof (first_missing_attribute
           (fresh (delete "platform" (Host.sys_namespace Host.cpython_3_10)) tt)
           ["version"]
           ["executable"; "byteorder"; "maxsize"; "path"; "version_info";
            "api_version"; "flags"; "hexversion"; "copyright"]
           "platform" [PStr (Host.version Host.cpython_3_10)]) as H.
  cbn [fresh sys_dict printed loads stderr outside] in H.
  apply H; [reflexivity|repeat constructor|vm_compute; reflexivity].
Defined.

(** X3: after a run that starts with nothing printed in a namespace that
    holds the eleven attributes, every label finds its own record: the
    value read back after a label is the [str] of the attribute printed
    after it, whatever the values are, since no label with its colon and
    space starts the record of another. *)
Theorem values_read_back {Outside}
    (d : gmap string PyVal) (o : Outside) (vs : list PyVal) :
  Forall2 (fun attr v => d !! attr = Some v) queried vs ->
  Forall2 (fun label v =>
             value_of label (printed (snd (run_script (fresh d o)))) =
             Some (py_str v))
    labels vs.
Proof.
  intros Hd. rewrite (run_present (fresh d o) vs Hd).
  cbn [snd printed fresh app].
  pose proof (Forall2_length _ _ _ Hd) as Hlen. clear Hd.
  unfold queried, rows in Hlen. cbn [List.map length] in Hlen.
  do 11 (destruct vs as [|? vs]; [discriminate Hlen|]).
  destruct vs; [|discriminate Hlen].
  unfold labels, rows. cbn [List.map fst zip_with].
  repeat constructor;
    rewrite ?value_of_skip by reflexivity; apply value_of_here.
Qed.

Lemma values_read_back_witness :
  Forall2 (fun label v =>
             value_of label (printed (snd (run_script
               (fresh (Host.sys_namespace Host.cpython_3_10) tt)))) =
             Some (py_str v))
    labels (Host.reported Host.cpython_3_10).
Proof.
  apply (values_read_back (Host.sys_namespace Host.cpython_3_10) tt
           (Host.reported Host.cpython_3_10)).
  unfold queried, rows. cbn [List.map snd]. repeat constructor.
Defined.

(** X4: after a run that starts with nothing printed in a namespace that
    holds the eleven attributes, standard output has eleven lines and one
    more for every line feed inside the [str] of a printed value. *)
Theorem line_count_formula {Outside}
    (d : gmap string PyVal) (o : Outside) (vs : list PyVal) :
  Forall2 (fun attr v => d !! attr = Some v) queried vs ->
  length (lines_of (stdout_text (snd (run_script (fresh d o))))) =
  (11 + sum_list (List.map (fun v => count_lf (py_str v)) vs))%nat.
Proof.
  intros Hd. rewrite (run_present (fresh d o) vs Hd).
  unfold stdout_text. cbn [snd printed fresh app].
  assert (length labels = length vs) as Hlen
    by (rewrite <- (Forall2_length _ _ _ Hd); reflexivity).
  destruct (records_end_with_lf labels vs Hlen) as [t Ht]; [discriminate|].
  pose proof (count_lf_records labels vs Hlen) as Hn.
  rewrite Ht in Hn |- *. unfold lines_of. rewrite lines_from_length.
  rewrite count_lf_app in Hn. change (count_lf (String LF "")) with 1%nat in Hn.
  change (sum_list (List.map count_lf labels)) with O in Hn.
  change (length labels) with 11%nat in Hn. lia.
Qed.

Lemma line_count_formula_witness :
  length (lines_of (stdout_text (snd (run_script
    (fresh (Host.sys_namespace Host.cpython_3_10) tt))))) =
  (11 + sum_list (List.map (fun v => count_lf (py_str v))
                    (Host.reported Host.cpython_3_10)))%nat.
Proof.
  apply (line_count_formula (Host.sys_namespace Host.cpython_3_10) tt
           (Host.reported Host.cpython_3_10)).
  unfold queried, rows. cbn [List.map snd]. repeat constructor.
Defined.

(** X5: a second run in the state the first run leaves meets the same
    namespace: it exits with the same status and appends to standard output
    the very texts the first run appended. *)
Theorem second_run_repeats {Outside} (w : World Outside) :
  let first := run_script w in
  let second := run_script (snd first) in
  fst second = fst first /\
  sys_dict (snd second) = sys_dict w /\
  exists new : list string,
    printed (snd first) = (printed w ++ new)%list /\
    printed (snd second) = (printed w ++ new ++ new)%list.
Proof.
  cbv zeta. rewrite (run_script_eq w).
  destruct (report_effect (sys_dict w) rows) as [[ps ls] e] eqn:He.
  cbn [fst snd]. rewrite run_script_eq. cbn [sys_dict printed]. rewrite He.
  cbn [fst snd sys_dict printed]. repeat split.
  exists ps. split; [reflexivity|]. now rewrite app_assoc.
Qed.
